(** * EcsService: the ECS service resource

    A shallow embedding of
    [src/phidata/infra/aws/resource/ecs/service.py]: the class
    [EcsService], its three resolvers ([get_ecs_service_name],
    [get_ecs_cluster_name], [get_ecs_task_definition]) and its four
    lifecycle methods ([_create], [_read], [_delete], [_update]).

    Python objects are mutable, so a method is a computation over the
    object it is called on; the remote API is an oracle answering each
    call with a response dict or an exception; everything a method does to
    the outside (console lines, remote calls, writes to the cache
    [active_resource]) is appended to a trace in program order. *)

From stdpp Require Import gmap strings list fin_maps.
From Stdlib Require Import ZArith.

(** ** Python values *)

(** The JSON-like fragment of Python values that requests and responses of
    the ECS API are made of. *)
#[warnings="-register-all"]
Inductive PyVal : Type :=
| VNone
| VBool (b : bool)
| VInt (z : Z)
| VStr (s : string)
| VList (l : list PyVal)
| VDict (d : gmap string PyVal).

Abbreviation PyDict := (gmap string PyVal).

(** [x is not None] *)
Definition is_not_None (x : PyVal) : bool :=
  match x with VNone => false | _ => true end.

(** [x == s] for a [str] [s]: only an equal string compares equal. *)
Definition py_eq_str (x : PyVal) (s : string) : bool :=
  match x with VStr t => String.eqb t s | _ => false end.

(** Truth value of a [str]: the empty string is falsy. *)
Definition truthy (s : string) : bool :=
  match s with EmptyString => false | _ => true end.

(** The exceptions the methods tell apart: botocore's [ClientError], caught
    first in [_read], and every other [Exception]; [AttributeError] is the
    one the code can raise by itself, calling [.get] on a value that is not
    a dict. Only subclasses of [Exception] are here: what [except Exception]
    lets through ([KeyboardInterrupt], [SystemExit]) is outside the model,
    and nothing below says that a method cannot raise. *)
Inductive PyExn : Type :=
| ClientError (code message : string)
| AttributeError (message : string)
| OtherException (message : string).

Definition is_ClientError (e : PyExn) : bool :=
  match e with ClientError _ _ => true | _ => false end.

(** ** The classes [EcsService] refers to *)

Module EcsCluster.

(** Modelled from the spec: class [EcsCluster] is declared in
    [ecs/cluster.py], which is not part of the sources at hand; the service
    reads only its [name], "the object's name". *)
Record t := { name : string }.

End EcsCluster.

Module EcsTaskDefinition.

(** Modelled from the spec: class [EcsTaskDefinition] is declared in
    [ecs/task_definition.py], which is not part of the sources at hand; the
    service only calls [get_task_family()] on it, "the object's task
    family". *)
Record t := { task_family : string }.

Definition get_task_family (self : t) : string := task_family self.

End EcsTaskDefinition.

(** [Literal["EC2", "FARGATE", "EXTERNAL"]] *)
Inductive LaunchType := EC2 | FARGATE | EXTERNAL.
(** [Literal["REPLICA", "DAEMON"]] *)
Inductive SchedulingStrategy := REPLICA | DAEMON.
(** [Literal["TASK_DEFINITION", "SERVICE", "NONE"]] *)
Inductive PropagateTags := TASK_DEFINITION | SERVICE | NONE.

Definition launch_type_val (x : LaunchType) : PyVal :=
  VStr match x with EC2 => "EC2" | FARGATE => "FARGATE" | EXTERNAL => "EXTERNAL" end.
Definition scheduling_strategy_val (x : SchedulingStrategy) : PyVal :=
  VStr match x with REPLICA => "REPLICA" | DAEMON => "DAEMON" end.
Definition propagate_tags_val (x : PropagateTags) : PyVal :=
  VStr match x with
       | TASK_DEFINITION => "TASK_DEFINITION" | SERVICE => "SERVICE" | NONE => "NONE"
       end.

(** [List[Dict[str, Any]]] as a Python value *)
Definition dicts_val (l : list PyDict) : PyVal := VList (VDict <$> l).

(** ** The descriptor *)

(** The attributes of an [EcsService] object, in the order of the class
    body; [active_resource] is inherited from [AwsResource] and is the only
    attribute the methods assign. *)
Record EcsService := mkEcsService {
  name : string;
  ecs_service_name : option string;
  cluster : option (EcsCluster.t + string);
  task_definition : option (EcsTaskDefinition.t + string);
  load_balancers : option (list PyDict);
  service_registries : option (list PyDict);
  desired_count : option Z;
  client_token : option string;
  launch_type : option LaunchType;
  capacity_provider_strategy : option (list PyDict);
  platform_version : option string;
  role : option string;
  deployment_configuration : option PyDict;
  placement_constraints : option (list PyDict);
  placement_strategy : option (list PyDict);
  network_configuration : option PyDict;
  health_check_grace_period_seconds : option Z;
  scheduling_strategy : option SchedulingStrategy;
  deployment_controller : option PyDict;
  tags : option (list PyDict);
  enable_ecsmanaged_tags : option bool;
  propagate_tags : option PropagateTags;
  enable_execute_command : option bool;
  force_delete : option bool;
  active_resource : option PyVal
}.

(** [self.active_resource = v] *)
Definition with_active_resource (v : option PyVal) (s : EcsService) : EcsService :=
  {| name := name s;
     ecs_service_name := ecs_service_name s;
     cluster := cluster s;
     task_definition := task_definition s;
     load_balancers := load_balancers s;
     service_registries := service_registries s;
     desired_count := desired_count s;
     client_token := client_token s;
     launch_type := launch_type s;
     capacity_provider_strategy := capacity_provider_strategy s;
     platform_version := platform_version s;
     role := role s;
     deployment_configuration := deployment_configuration s;
     placement_constraints := placement_constraints s;
     placement_strategy := placement_strategy s;
     network_configuration := network_configuration s;
     health_check_grace_period_seconds := health_check_grace_period_seconds s;
     scheduling_strategy := scheduling_strategy s;
     deployment_controller := deployment_controller s;
     tags := tags s;
     enable_ecsmanaged_tags := enable_ecsmanaged_tags s;
     propagate_tags := propagate_tags s;
     enable_execute_command := enable_execute_command s;
     force_delete := force_delete s;
     active_resource := v |}.

(** ** The remote API and the trace *)

(** The operations of the boto3 ECS client. [update_service] is never
    called by the class; it is listed so that the trace can say so. *)
Inductive RemoteOp := create_service | describe_services | delete_service | update_service.

(** The service client handed out by [get_service_client(aws_client)]: each
    call, with its keyword arguments, returns a response dict or raises. *)
Definition AwsApiClient := RemoteOp → PyDict → PyExn + PyDict.

(** The texts of the console and log lines. The f-strings of the source
    interpolate the resource type and name of the base class, a response or
    an exception; a line is kept as its template and what it interpolates. *)
Inductive Msg :=
| Creating | Created | could_not_be_created
| Reading | ClientError_line (ce : PyExn) | Error_reading
| Deleting | deleted | could_not_be_deleted | Please_try_again
| Updating
| Response (r : PyDict)
| Exc (e : PyExn).

Inductive Event :=
| print_info_ev (m : Msg)
| print_error_ev (m : Msg)
| logger_debug_ev (m : Msg)
| Remote (op : RemoteOp) (kwargs : PyDict) (result : PyExn + PyDict)
| Assign_active_resource (v : option PyVal).

(** What a method runs on: the object and the trace so far. *)
Record World := mkWorld { this : EcsService; trace : list Event }.

(** ** Computations: state and exceptions *)

Definition Py (A : Type) : Type := World → (PyExn + A) * World.

Definition ret {A} (a : A) : Py A := λ w, (inr a, w).

Definition bind {A B} (k : A → Py B) (m : Py A) : Py B :=
  λ w, match m w with
       | (inr a, w') => k a w'
       | (inl e, w') => (inl e, w')
       end.

(** [x ← m; k] and [m;; k] are stdpp's notations for sequencing. *)
#[global] Instance Py_ret : MRet Py := @ret.
#[global] Instance Py_bind : MBind Py := @bind.

Definition raise {A} (e : PyExn) : Py A := λ w, (inl e, w).

(** [try: body  except ... as e: handler e] *)
Definition try_except {A} (body : Py A) (handler : PyExn → Py A) : Py A :=
  λ w, match body w with
       | (inr a, w') => (inr a, w')
       | (inl e, w') => handler e w'
       end.

Definition emit (ev : Event) : Py unit :=
  λ w, (inr (), {| this := this w; trace := trace w ++ [ev] |}).

Definition print_info (m : Msg) : Py unit := emit (print_info_ev m).
Definition print_error (m : Msg) : Py unit := emit (print_error_ev m).
Definition logger_debug (m : Msg) : Py unit := emit (logger_debug_ev m).

(** Reading the object the method was called on. *)
Definition get_self : Py EcsService := λ w, (inr (this w), w).

Definition set_active_resource (v : option PyVal) : Py unit :=
  λ w, (inr (), {| this := with_active_resource v (this w);
                   trace := trace w ++ [Assign_active_resource v] |}).

(** A call of the service client: the answer of the oracle, recorded. *)
Definition call (client : AwsApiClient) (op : RemoteOp) (kwargs : PyDict) : Py PyDict :=
  λ w, let r := client op kwargs in
       (r, {| this := this w; trace := trace w ++ [Remote op kwargs r] |}).

(** [x.get(k, None)]: only a dict has [get]. *)
Definition py_get (x : PyVal) (k : string) : Py PyVal :=
  match x with
  | VDict d => mret (default VNone (d !! k))
  | _ => raise (AttributeError "object has no attribute 'get'")
  end.

(** ** Resolvers *)

(** [self.ecs_service_name or self.name] *)
Definition get_ecs_service_name (self : EcsService) : string :=
  match ecs_service_name self with
  | Some s => if truthy s then s else name self
  | None => name self
  end.

Definition get_ecs_cluster_name (self : EcsService) : option string :=
  match cluster self with
  | Some (inl c) => Some (EcsCluster.name c)
  | Some (inr s) => Some s
  | None => None
  end.

Definition get_ecs_task_definition (self : EcsService) : option string :=
  match task_definition self with
  | Some (inl td) => Some (EcsTaskDefinition.get_task_family td)
  | Some (inr s) => Some s
  | None => None
  end.

(** A value that may be [None], as Python passes it. *)
Definition opt_val {A} (inj : A → PyVal) (x : option A) : PyVal :=
  match x with Some a => inj a | None => VNone end.

(** ** Request arguments *)

(** [if v is not None: not_null_args[k] = v] *)
Definition set_if_not_None {A} (k : string) (v : option A) (inj : A → PyVal)
    (not_null_args : PyDict) : PyDict :=
  match v with
  | Some x => <[k := inj x]> not_null_args
  | None => not_null_args
  end.

(** The dict [not_null_args] of [_create], the assignments in source order
    (the first one is innermost). *)
Definition create_not_null_args (self : EcsService) : PyDict :=
  set_if_not_None "enableExecuteCommand" (enable_execute_command self) VBool
  (set_if_not_None "propagateTags" (propagate_tags self) propagate_tags_val
  (set_if_not_None "enableECSManagedTags" (enable_ecsmanaged_tags self) VBool
  (set_if_not_None "tags" (tags self) dicts_val
  (set_if_not_None "deploymentController" (deployment_controller self) VDict
  (set_if_not_None "schedulingStrategy" (scheduling_strategy self) scheduling_strategy_val
  (set_if_not_None "healthCheckGracePeriodSeconds"
     (health_check_grace_period_seconds self) VInt
  (set_if_not_None "networkConfiguration" (network_configuration self) VDict
  (set_if_not_None "placementStrategy" (placement_strategy self) dicts_val
  (set_if_not_None "placementConstraints" (placement_constraints self) dicts_val
  (set_if_not_None "deploymentConfiguration" (deployment_configuration self) VDict
  (set_if_not_None "role" (role self) VStr
  (set_if_not_None "platformVersion" (platform_version self) VStr
  (set_if_not_None "capacityProviderStrategy" (capacity_provider_strategy self) dicts_val
  (set_if_not_None "launchType" (launch_type self) launch_type_val
  (set_if_not_None "clientToken" (client_token self) VStr
  (set_if_not_None "desiredCount" (desired_count self) VInt
  (set_if_not_None "serviceRegistries" (service_registries self) dicts_val
  (set_if_not_None "loadBalancers" (load_balancers self) dicts_val
  (set_if_not_None "cluster" (get_ecs_cluster_name self) VStr
   ∅))))))))))))))))))).

(** The keyword arguments of [create_service(serviceName=...,
    taskDefinition=..., **not_null_args)]. The two explicit keywords are
    always passed; Python would raise on a keyword given twice, which
    [create_kwargs_no_clash] below rules out. *)
Definition create_kwargs (self : EcsService) : PyDict :=
  <["serviceName" := VStr (get_ecs_service_name self)]>
  (<["taskDefinition" := opt_val VStr (get_ecs_task_definition self)]>
   (create_not_null_args self)).

(** [not_null_args] of [_read] *)
Definition read_not_null_args (self : EcsService) : PyDict :=
  set_if_not_None "cluster" (get_ecs_cluster_name self) VStr ∅.

(** [describe_services(services=[service_name], **not_null_args)] *)
Definition read_kwargs (self : EcsService) : PyDict :=
  <["services" := VList [VStr (get_ecs_service_name self)]]> (read_not_null_args self).

(** [not_null_args] of [_delete] *)
Definition delete_not_null_args (self : EcsService) : PyDict :=
  set_if_not_None "force" (force_delete self) VBool
  (set_if_not_None "cluster" (get_ecs_cluster_name self) VStr ∅).

(** [delete_service(service=..., **not_null_args)] *)
Definition delete_kwargs (self : EcsService) : PyDict :=
  <["service" := VStr (get_ecs_service_name self)]> (delete_not_null_args self).

(** ** The lifecycle methods *)

(** Each method follows its source line by line. [get_service_client] is a
    method of the base class [AwsResource], which is not part of the
    sources at hand; it is called outside the [try] and is taken to hand
    out the client it is given, so the methods are modelled from the point
    where it has returned. In
    [_create] and [_delete] the [return True] inside [try] and the
    [return False] after it are the two results of the [try] statement. *)

Definition _create (aws_client : AwsApiClient) : Py bool :=
  self ← get_self;
  print_info Creating;;
  let service_client := aws_client in
  try_except
    (create_response ← call service_client create_service (create_kwargs self);
     logger_debug (Response create_response);;
     let resource_dict := default (VDict ∅) (create_response !! "service") in
     if is_not_None resource_dict then
       print_info Created;;
       set_active_resource (Some (VDict create_response));;
       mret true
     else mret false)
    (λ e,
     print_error could_not_be_created;;
     print_error (Exc e);;
     mret false).

(** The [for resource in resource_list] loop of [_read]; it stops at the
    first entry with the service's name and status ACTIVE. *)
Fixpoint for_resource_in (service_name : string) (resource_list : list PyVal) : Py unit :=
  match resource_list with
  | [] => mret ()
  | resource :: rest =>
    _service_name ← py_get resource "serviceName";
    if py_eq_str _service_name service_name then
      _service_status ← py_get resource "status";
      if py_eq_str _service_status "ACTIVE" then
        set_active_resource (Some resource)
      else for_resource_in service_name rest
    else for_resource_in service_name rest
  end.

Definition _read (aws_client : AwsApiClient) : Py (option PyVal) :=
  self ← get_self;
  logger_debug Reading;;
  let service_client := aws_client in
  try_except
    (let service_name := get_ecs_service_name self in
     describe_response ← call service_client describe_services (read_kwargs self);
     logger_debug (Response describe_response);;
     match describe_response !! "services" with
     | Some (VList resource_list) => for_resource_in service_name resource_list
     | _ => mret ()
     end)
    (λ e,
     if is_ClientError e then logger_debug (ClientError_line e)
     else print_error Error_reading;; print_error (Exc e));;
  self ← get_self;
  mret (active_resource self).

Definition _delete (aws_client : AwsApiClient) : Py bool :=
  self ← get_self;
  print_info Deleting;;
  let service_client := aws_client in
  set_active_resource None;;
  try_except
    (delete_response ← call service_client delete_service (delete_kwargs self);
     logger_debug (Response delete_response);;
     print_info deleted;;
     mret true)
    (λ e,
     print_error could_not_be_deleted;;
     print_error Please_try_again;;
     print_error (Exc e);;
     mret false).

Definition _update (aws_client : AwsApiClient) : Py bool :=
  print_info Updating;;
  mret true.

(** ** The translation table of the create payload *)

(** The fields of the descriptor that [_create] projects into
    [not_null_args], the spec's "fixed name-translation table" with
    [wire_name]. The name of the service and its task definition are passed
    as explicit keywords instead, and [force_delete] is an option of
    [_delete]. *)
Inductive Field :=
| F_cluster | F_load_balancers | F_service_registries | F_desired_count
| F_client_token | F_launch_type | F_capacity_provider_strategy
| F_platform_version | F_role | F_deployment_configuration
| F_placement_constraints | F_placement_strategy | F_network_configuration
| F_health_check_grace_period_seconds | F_scheduling_strategy
| F_deployment_controller | F_tags | F_enable_ecsmanaged_tags
| F_propagate_tags | F_enable_execute_command.

Definition all_fields : list Field :=
  [F_cluster; F_load_balancers; F_service_registries; F_desired_count;
   F_client_token; F_launch_type; F_capacity_provider_strategy;
   F_platform_version; F_role; F_deployment_configuration;
   F_placement_constraints; F_placement_strategy; F_network_configuration;
   F_health_check_grace_period_seconds; F_scheduling_strategy;
   F_deployment_controller; F_tags; F_enable_ecsmanaged_tags;
   F_propagate_tags; F_enable_execute_command].

Definition wire_name (f : Field) : string :=
  match f with
  | F_cluster => "cluster"
  | F_load_balancers => "loadBalancers"
  | F_service_registries => "serviceRegistries"
  | F_desired_count => "desiredCount"
  | F_client_token => "clientToken"
  | F_launch_type => "launchType"
  | F_capacity_provider_strategy => "capacityProviderStrategy"
  | F_platform_version => "platformVersion"
  | F_role => "role"
  | F_deployment_configuration => "deploymentConfiguration"
  | F_placement_constraints => "placementConstraints"
  | F_placement_strategy => "placementStrategy"
  | F_network_configuration => "networkConfiguration"
  | F_health_check_grace_period_seconds => "healthCheckGracePeriodSeconds"
  | F_scheduling_strategy => "schedulingStrategy"
  | F_deployment_controller => "deploymentController"
  | F_tags => "tags"
  | F_enable_ecsmanaged_tags => "enableECSManagedTags"
  | F_propagate_tags => "propagateTags"
  | F_enable_execute_command => "enableExecuteCommand"
  end.

(** The declared value of a field as it goes on the wire, [None] when the
    field is unset. A cluster goes by its resolved name. *)
Definition field_value (f : Field) (self : EcsService) : option PyVal :=
  match f with
  | F_cluster =>
      (λ c, VStr match c with inl o => EcsCluster.name o | inr s => s end)
        <$> cluster self
  | F_load_balancers => dicts_val <$> load_balancers self
  | F_service_registries => dicts_val <$> service_registries self
  | F_desired_count => VInt <$> desired_count self
  | F_client_token => VStr <$> client_token self
  | F_launch_type => launch_type_val <$> launch_type self
  | F_capacity_provider_strategy => dicts_val <$> capacity_provider_strategy self
  | F_platform_version => VStr <$> platform_version self
  | F_role => VStr <$> role self
  | F_deployment_configuration => VDict <$> deployment_configuration self
  | F_placement_constraints => dicts_val <$> placement_constraints self
  | F_placement_strategy => dicts_val <$> placement_strategy self
  | F_network_configuration => VDict <$> network_configuration self
  | F_health_check_grace_period_seconds =>
      VInt <$> health_check_grace_period_seconds self
  | F_scheduling_strategy => scheduling_strategy_val <$> scheduling_strategy self
  | F_deployment_controller => VDict <$> deployment_controller self
  | F_tags => dicts_val <$> tags self
  | F_enable_ecsmanaged_tags => VBool <$> enable_ecsmanaged_tags self
  | F_propagate_tags => propagate_tags_val <$> propagate_tags self
  | F_enable_execute_command => VBool <$> enable_execute_command self
  end.

(** The fields that are set. *)
Definition set_fields (self : EcsService) : list Field :=
  filter (λ f, is_Some (field_value f self)) all_fields.

(** ** Sample objects *)

(** [EcsService(name=n)]: every optional attribute at its default. *)
Definition EcsService_init (n : string) : EcsService :=
  {| name := n; ecs_service_name := None; cluster := None; task_definition := None;
     load_balancers := None; service_registries := None; desired_count := None;
     client_token := None; launch_type := None; capacity_provider_strategy := None;
     platform_version := None; role := None; deployment_configuration := None;
     placement_constraints := None; placement_strategy := None;
     network_configuration := None; health_check_grace_period_seconds := None;
     scheduling_strategy := None; deployment_controller := None; tags := None;
     enable_ecsmanaged_tags := None; propagate_tags := None;
     enable_execute_command := None; force_delete := None;
     active_resource := None |}.

(** [EcsService(name="web", cluster="prod", task_definition="web-task",
    desired_count=n, enable_ecsmanaged_tags=True)] *)
Definition web (n : Z) : EcsService :=
  {| name := "web"; ecs_service_name := None; cluster := Some (inr "prod");
     task_definition := Some (inr "web-task");
     load_balancers := None; service_registries := None; desired_count := Some n;
     client_token := None; launch_type := None; capacity_provider_strategy := None;
     platform_version := None; role := None; deployment_configuration := None;
     placement_constraints := None; placement_strategy := None;
     network_configuration := None; health_check_grace_period_seconds := None;
     scheduling_strategy := None; deployment_controller := None; tags := None;
     enable_ecsmanaged_tags := Some true; propagate_tags := None;
     enable_execute_command := None; force_delete := None;
     active_resource := None |}.

(** A fresh run: the object, nothing traced yet. *)
Definition fresh (s : EcsService) : World := {| this := s; trace := [] |}.

(** The entry of a service in a describe response. *)
Definition service_entry (n status : string) (count : Z) : PyVal :=
  VDict {[ "serviceName" := VStr n; "status" := VStr status; "desiredCount" := VInt count ]}.

(** ** Sample remotes *)

(** A remote that holds the service "web", ACTIVE with three tasks: it
    refuses to create it again and describes it. *)
Definition occupied_client : AwsApiClient := λ op kwargs,
  match op with
  | create_service =>
      inl (ClientError "InvalidParameterException"
                       "Creation of service was not idempotent.")
  | describe_services => inr {[ "services" := VList [service_entry "web" "ACTIVE" 3] ]}
  | delete_service => inr {[ "service" := service_entry "web" "DRAINING" 3 ]}
  | update_service => inr {[ "service" := service_entry "web" "ACTIVE" 3 ]}
  end.

(** A remote on which the service is absent: nothing to describe, nothing
    to delete. *)
Definition absent_client : AwsApiClient := λ op kwargs,
  match op with
  | create_service => inr {[ "service" := service_entry "web" "ACTIVE" 3 ]}
  | describe_services =>
      inr {[ "services" := VList [];
             "failures" := VList [VDict {[ "reason" := VStr "MISSING" ]}] ]}
  | delete_service | update_service =>
      inl (ClientError "ServiceNotFoundException" "Service not found.")
  end.

(** A remote that denies every call. *)
Definition denied_client : AwsApiClient := λ op kwargs,
  inl (ClientError "AccessDeniedException" "User is not authorized.").

(** A remote whose describe response lists several entries: a draining
    service of the same name, another service, the service looked for, and
    more after it. *)
Definition busy_client : AwsApiClient := λ op kwargs,
  match op with
  | describe_services =>
      inr {[ "services" :=
               VList [service_entry "web" "DRAINING" 1; service_entry "api" "ACTIVE" 2;
                      service_entry "web" "ACTIVE" 3; VStr "junk";
                      service_entry "web" "ACTIVE" 9] ]}
  | _ => inl (OtherException "not expected")
  end.

(** A remote whose describe response starts with an entry that is no dict. *)
Definition garbled_client : AwsApiClient := λ op kwargs,
  match op with
  | describe_services =>
      inr {[ "services" := VList [VStr "junk"; service_entry "web" "ACTIVE" 3] ]}
  | _ => inl (OtherException "not expected")
  end.

(** A remote whose create response carries no "service" entry. *)
Definition terse_client : AwsApiClient := λ op kwargs,
  inr {[ "ResponseMetadata" := VDict {[ "HTTPStatusCode" := VInt 200 ]} ]}.

(** ** Reading a describe response *)

Definition is_dict (v : PyVal) : bool :=
  match v with VDict _ => true | _ => false end.

(** An entry of a describe response that is the service looked for: a dict
    whose [serviceName] is the name of the service and whose [status] is
    ACTIVE. *)
Definition is_active_entry (service_name : string) (v : PyVal) : bool :=
  match v with
  | VDict d =>
      py_eq_str (default VNone (d !! "serviceName")) service_name
      && py_eq_str (default VNone (d !! "status")) "ACTIVE"
  | _ => false
  end.

(** The remote calls of a trace, in order. *)
Definition remote_calls (tr : list Event) : list (RemoteOp * PyDict) :=
  omap (λ ev, match ev with Remote op kwargs _ => Some (op, kwargs) | _ => None end) tr.

(** The values assigned to the cache in a trace, in order. *)
Definition cache_writes (tr : list Event) : list (option PyVal) :=
  omap (λ ev, match ev with Assign_active_resource v => Some v | _ => None end) tr.

(** The events of [_read] up to the loop, and of its handlers. *)
Definition read_prefix (kwargs : PyDict) (r : PyDict) : list Event :=
  [logger_debug_ev Reading; Remote describe_services kwargs (inr r);
   logger_debug_ev (Response r)].

Definition read_handler_lines (e : PyExn) : list Event :=
  if is_ClientError e then [logger_debug_ev (ClientError_line e)]
  else [print_error_ev Error_reading; print_error_ev (Exc e)].

(** A remote whose create response has [None] as its "service" entry. *)
Definition none_client : AwsApiClient := λ op kwargs, inr {[ "service" := VNone ]}.

(** The lines printed as errors in a trace, in order. *)
Definition error_lines (tr : list Event) : list Msg :=
  omap (λ ev, match ev with print_error_ev m => Some m | _ => None end) tr.

(** What the loop of [_read] comes to on a list, apart from the object it
    runs on: the first entry that is the active service, nothing when the
    list has none, or the exception of the first entry that is no dict when
    that one comes first. *)
Fixpoint loop_outcome (service_name : string) (resource_list : list PyVal)
    : PyExn + option PyVal :=
  match resource_list with
  | [] => inr None
  | VDict d :: rest =>
      if is_active_entry service_name (VDict d) then inr (Some (VDict d))
      else loop_outcome service_name rest
  | _ :: _ => inl (AttributeError "object has no attribute 'get'")
  end.

(** [s] with [ecs_service_name=n]. *)
Definition renamed (s : EcsService) (n : string) : EcsService :=
  {| name := name s; ecs_service_name := Some n; cluster := cluster s;
     task_definition := task_definition s; load_balancers := load_balancers s;
     service_registries := service_registries s; desired_count := desired_count s;
     client_token := client_token s; launch_type := launch_type s;
     capacity_provider_strategy := capacity_provider_strategy s;
     platform_version := platform_version s; role := role s;
     deployment_configuration := deployment_configuration s;
     placement_constraints := placement_constraints s;
     placement_strategy := placement_strategy s;
     network_configuration := network_configuration s;
     health_check_grace_period_seconds := health_check_grace_period_seconds s;
     scheduling_strategy := scheduling_strategy s;
     deployment_controller := deployment_controller s; tags := tags s;
     enable_ecsmanaged_tags := enable_ecsmanaged_tags s;
     propagate_tags := propagate_tags s;
     enable_execute_command := enable_execute_command s;
     force_delete := force_delete s; active_resource := active_resource s |}.

(** ** Lookups in the request arguments *)

Section set_if_not_None.
Context {A : Type} (k : string) (v : option A) (inj : A → PyVal) (d : PyDict).

Lemma lookup_set_if_not_None_ne k' :
  k ≠ k' → set_if_not_None k v inj d !! k' = d !! k'.
Proof. intros Hne. destruct v; simpl; [by rewrite lookup_insert_ne|done]. Qed.

Lemma lookup_set_if_not_None_eq :
  d !! k = None → set_if_not_None k v inj d !! k = inj <$> v.
Proof. intros Hd. destruct v; simpl; [by rewrite lookup_insert_eq|done]. Qed.

Lemma lookup_set_if_not_None_is_Some k' :
  is_Some (set_if_not_None k v inj d !! k') → k' = k ∨ is_Some (d !! k').
Proof.
  destruct (decide (k = k')) as [->|Hne]; [by left|].
  rewrite lookup_set_if_not_None_ne by done. by right.
Qed.
End set_if_not_None.

(** Two string literals that differ. *)
Ltac str_ne := let H := fresh in intros H; discriminate H.

Ltac skip_other_keys := repeat (rewrite lookup_set_if_not_None_ne by str_ne).

(** Each wire name holds the declared value of its field, and nothing when
    the field is unset. *)
Lemma create_not_null_args_lookup (self : EcsService) (f : Field) :
  create_not_null_args self !! wire_name f = field_value f self.
Proof.
  unfold create_not_null_args.
  destruct f; simpl wire_name; skip_other_keys;
    (rewrite lookup_set_if_not_None_eq; [|skip_other_keys; apply lookup_empty]);
    try reflexivity.
  unfold get_ecs_cluster_name; simpl. by destruct (cluster self) as [[?|?]|].
Qed.

(** Picks the field whose wire name is the literal in the goal. *)
Ltac some_field :=
  first [ by exists F_cluster | by exists F_load_balancers
        | by exists F_service_registries | by exists F_desired_count
        | by exists F_client_token | by exists F_launch_type
        | by exists F_capacity_provider_strategy | by exists F_platform_version
        | by exists F_role | by exists F_deployment_configuration
        | by exists F_placement_constraints | by exists F_placement_strategy
        | by exists F_network_configuration
        | by exists F_health_check_grace_period_seconds
        | by exists F_scheduling_strategy | by exists F_deployment_controller
        | by exists F_tags | by exists F_enable_ecsmanaged_tags
        | by exists F_propagate_tags | by exists F_enable_execute_command ].

(** A key of the payload is the wire name of some field. *)
Lemma create_not_null_args_key (self : EcsService) (k : string) :
  is_Some (create_not_null_args self !! k) → ∃ f, k = wire_name f.
Proof.
  unfold create_not_null_args. intros H.
  repeat (apply lookup_set_if_not_None_is_Some in H as [->|H]; [some_field|]).
  rewrite lookup_empty in H. by destruct H.
Qed.

Lemma all_fields_complete (f : Field) : f ∈ all_fields.
Proof. destruct f; unfold all_fields; set_solver. Qed.

Lemma wire_name_inj (f g : Field) : wire_name f = wire_name g → f = g.
Proof. destruct f, g; simpl; intros H; first [reflexivity | discriminate H]. Qed.

(** ** What each method does, case by case *)

Ltac py_unfold :=
  unfold mbind, mret, Py_bind, Py_ret, bind, ret, try_except, raise, call,
    print_info, print_error, logger_debug, emit, get_self, set_active_resource;
  simpl.

Lemma _create_cases (client : AwsApiClient) (w : World) :
  _create client w =
  let kwargs := create_kwargs (this w) in
  match client create_service kwargs with
  | inr r =>
    if is_not_None (default (VDict ∅) (r !! "service")) then
      (inr true,
       {| this := with_active_resource (Some (VDict r)) (this w);
          trace := trace w ++
            [print_info_ev Creating; Remote create_service kwargs (inr r);
             logger_debug_ev (Response r); print_info_ev Created;
             Assign_active_resource (Some (VDict r))] |})
    else
      (inr false,
       {| this := this w;
          trace := trace w ++
            [print_info_ev Creating; Remote create_service kwargs (inr r);
             logger_debug_ev (Response r)] |})
  | inl e =>
    (inr false,
     {| this := this w;
        trace := trace w ++
          [print_info_ev Creating; Remote create_service kwargs (inl e);
           print_error_ev could_not_be_created; print_error_ev (Exc e)] |})
  end.
Proof.
  unfold _create. py_unfold.
  destruct (client create_service (create_kwargs (this w))) as [e|r]; simpl.
  - by rewrite <- !app_assoc.
  - destruct (is_not_None (default (VDict ∅) (r !! "service"))); simpl;
      by rewrite <- !app_assoc.
Qed.

Lemma _delete_cases (client : AwsApiClient) (w : World) :
  _delete client w =
  let kwargs := delete_kwargs (this w) in
  match client delete_service kwargs with
  | inr r =>
    (inr true,
     {| this := with_active_resource None (this w);
        trace := trace w ++
          [print_info_ev Deleting; Assign_active_resource None;
           Remote delete_service kwargs (inr r);
           logger_debug_ev (Response r); print_info_ev deleted] |})
  | inl e =>
    (inr false,
     {| this := with_active_resource None (this w);
        trace := trace w ++
          [print_info_ev Deleting; Assign_active_resource None;
           Remote delete_service kwargs (inl e);
           print_error_ev could_not_be_deleted; print_error_ev Please_try_again;
           print_error_ev (Exc e)] |})
  end.
Proof.
  unfold _delete. py_unfold.
  destruct (client delete_service (delete_kwargs (this w))) as [e|r]; simpl;
    by rewrite <- !app_assoc.
Qed.

Lemma _update_cases (client : AwsApiClient) (w : World) :
  _update client w =
  (inr true, {| this := this w; trace := trace w ++ [print_info_ev Updating] |}).
Proof. reflexivity. Qed.

Lemma _read_cases (client : AwsApiClient) (w : World) :
  _read client w =
  let kwargs := read_kwargs (this w) in
  match client describe_services kwargs with
  | inr r =>
    let w1 := {| this := this w; trace := trace w ++ read_prefix kwargs r |} in
    match r !! "services" with
    | Some (VList resource_list) =>
      match for_resource_in (get_ecs_service_name (this w)) resource_list w1 with
      | (inr _, w2) => (inr (active_resource (this w2)), w2)
      | (inl e, w2) =>
        (inr (active_resource (this w2)),
         {| this := this w2; trace := trace w2 ++ read_handler_lines e |})
      end
    | _ => (inr (active_resource (this w)), w1)
    end
  | inl e =>
    (inr (active_resource (this w)),
     {| this := this w;
        trace := trace w ++
          [logger_debug_ev Reading; Remote describe_services kwargs (inl e)]
          ++ read_handler_lines e |})
  end.
Proof.
  unfold _read, read_prefix, read_handler_lines. py_unfold.
  destruct (client describe_services (read_kwargs (this w))) as [e|r]; simpl.
  - destruct (is_ClientError e); simpl; by rewrite <- !app_assoc.
  - rewrite <- !app_assoc; simpl.
    destruct (r !! "services") as [[| | | |l|]|]; simpl; try done.
    destruct (for_resource_in _ l _) as [[e|[]] w2]; simpl; [|done].
    destruct (is_ClientError e); simpl; by rewrite <- ?app_assoc.
Qed.

(** The loop passes over the dicts that are not the active service and
    stops at the first entry that is. *)
Lemma for_resource_in_first (n : string) (pre : list PyVal) (x : PyVal)
    (post : list PyVal) (w : World) :
  Forall (λ v, is_dict v = true ∧ is_active_entry n v = false) pre →
  is_active_entry n x = true →
  for_resource_in n (pre ++ x :: post) w =
  (inr (), {| this := with_active_resource (Some x) (this w);
              trace := trace w ++ [Assign_active_resource (Some x)] |}).
Proof.
  intros Hpre Hx. induction Hpre as [|v pre [Hd Hv] _ IH]; simpl.
  - destruct x as [| | | | |d]; try discriminate Hx. simpl in Hx.
    apply andb_true_iff in Hx as [Hn Hs]. py_unfold. by rewrite Hn, Hs.
  - destruct v as [| | | | |d]; try discriminate Hd. simpl in Hv. py_unfold.
    destruct (py_eq_str (default VNone (d !! "serviceName")) n); simpl in *; [|done].
    by rewrite Hv.
Qed.

(** An entry that is not a dict ends the loop with an exception. *)
Lemma for_resource_in_not_dict (n : string) (pre : list PyVal) (x : PyVal)
    (post : list PyVal) (w : World) :
  Forall (λ v, is_dict v = true ∧ is_active_entry n v = false) pre →
  is_dict x = false →
  ∃ m, for_resource_in n (pre ++ x :: post) w = (inl (AttributeError m), w).
Proof.
  intros Hpre Hx. induction Hpre as [|v pre [Hd Hv] _ IH]; simpl.
  - destruct x; try discriminate Hx; by eexists.
  - destruct v as [| | | | |d]; try discriminate Hd. simpl in Hv. py_unfold.
    destruct (py_eq_str (default VNone (d !! "serviceName")) n); simpl in *; [|done].
    by rewrite Hv.
Qed.

(** Without such an entry the loop leaves the object and the trace alone. *)
Lemma for_resource_in_no_entry (n : string) (l : list PyVal) (w : World) :
  Forall (λ v, is_active_entry n v = false) l →
  (for_resource_in n l w).2 = w.
Proof.
  intros Hl. induction Hl as [|v l Hv _ IH]; simpl; [done|].
  destruct v as [| | | | |d]; try done. simpl in Hv. py_unfold.
  destruct (py_eq_str (default VNone (d !! "serviceName")) n); simpl in *; [|done].
  by rewrite Hv.
Qed.

(** ** The methods at work *)

Example create_web_on_absent :
  _create absent_client (fresh (web 3)) =
  let response := {[ "service" := service_entry "web" "ACTIVE" 3 ]} in
  let kwargs := {[ "serviceName" := VStr "web"; "taskDefinition" := VStr "web-task";
                   "cluster" := VStr "prod"; "desiredCount" := VInt 3;
                   "enableECSManagedTags" := VBool true ]} in
  (inr true,
   {| this := with_active_resource (Some (VDict response)) (web 3);
      trace := [print_info_ev Creating; Remote create_service kwargs (inr response);
                logger_debug_ev (Response response); print_info_ev Created;
                Assign_active_resource (Some (VDict response))] |}).
Proof. reflexivity. Qed.

Example read_web_on_busy :
  (_read busy_client (fresh (web 3))).1 = inr (Some (service_entry "web" "ACTIVE" 3)).
Proof. reflexivity. Qed.

Example read_web_on_garbled :
  let kwargs := {[ "services" := VList [VStr "web"]; "cluster" := VStr "prod" ]} in
  let response := {[ "services" := VList [VStr "junk"; service_entry "web" "ACTIVE" 3] ]} in
  let e := AttributeError "object has no attribute 'get'" in
  _read garbled_client (fresh (web 3)) =
  (inr None,
   {| this := web 3;
      trace := [logger_debug_ev Reading; Remote describe_services kwargs (inr response);
                logger_debug_ev (Response response);
                print_error_ev Error_reading; print_error_ev (Exc e)] |}).
Proof. reflexivity. Qed.

Example delete_web_on_occupied :
  let kwargs := {[ "service" := VStr "web"; "cluster" := VStr "prod" ]} in
  let response := {[ "service" := service_entry "web" "DRAINING" 3 ]} in
  _delete occupied_client
    (fresh (with_active_resource (Some (service_entry "web" "ACTIVE" 3)) (web 3))) =
  (inr true,
   {| this := web 3;
      trace := [print_info_ev Deleting; Assign_active_resource None;
                Remote delete_service kwargs (inr response);
                logger_debug_ev (Response response); print_info_ev deleted] |}).
Proof. reflexivity. Qed.

Example service_name_falls_back :
  get_ecs_service_name (EcsService_init "web") = "web"
  ∧ get_ecs_service_name
      {| name := "web"; ecs_service_name := Some ""; cluster := None;
         task_definition := None; load_balancers := None; service_registries := None;
         desired_count := None; client_token := None; launch_type := None;
         capacity_provider_strategy := None; platform_version := None; role := None;
         deployment_configuration := None; placement_constraints := None;
         placement_strategy := None; network_configuration := None;
         health_check_grace_period_seconds := None; scheduling_strategy := None;
         deployment_controller := None; tags := None; enable_ecsmanaged_tags := None;
         propagate_tags := None; enable_execute_command := None; force_delete := None;
         active_resource := None |} = "web".
Proof. split; reflexivity. Qed.

(** ** The create payload *)

(** The one remote call of [_create]: the two explicit keywords and the
    payload. *)
Lemma _create_remote_calls (client : AwsApiClient) (w : World) :
  remote_calls (trace (_create client w).2)
  = remote_calls (trace w) ++
    [(create_service,
      <["serviceName" := VStr (get_ecs_service_name (this w))]>
      (<["taskDefinition" := opt_val VStr (get_ecs_task_definition (this w))]>
       (create_not_null_args (this w))))].
Proof.
  rewrite _create_cases. simpl. unfold remote_calls.
  destruct (client create_service _) as [e|r]; simpl; [by rewrite omap_app|].
  destruct (is_not_None _); simpl; by rewrite omap_app.
Qed.

(** The dict [not_null_args] alone, without the two explicit keywords of
    the call: its keys are exactly the wire names of the fields of the
    table that are set, and under the wire name of a field it holds the
    declared value of that field (so [enable_ecsmanaged_tags] is found
    under "enableECSManagedTags"). The task definition is no field of the
    table: see [create_request_sends_unset_task_definition]. *)
Theorem create_payload_exact (client : AwsApiClient) (w : World) :
  let payload := create_not_null_args (this w) in
  dom payload = list_to_set (wire_name <$> set_fields (this w))
  ∧ (∀ f, payload !! wire_name f = field_value f (this w))
  ∧ remote_calls (trace (_create client w).2)
    = remote_calls (trace w) ++
      [(create_service,
        <["serviceName" := VStr (get_ecs_service_name (this w))]>
        (<["taskDefinition" := opt_val VStr (get_ecs_task_definition (this w))]>
         payload))].
Proof.
  intros payload. subst payload.
  split; [|split; [apply create_not_null_args_lookup|apply _create_remote_calls]].
  apply set_eq. intros k.
  rewrite elem_of_dom, elem_of_list_to_set, list_elem_of_fmap. split.
  - intros Hk. destruct (create_not_null_args_key _ _ Hk) as [f ->].
    exists f. split; [done|]. apply list_elem_of_filter.
    split; [|apply all_fields_complete].
    by rewrite <- create_not_null_args_lookup.
  - intros (f & -> & Hf). apply list_elem_of_filter in Hf as [Hf _].
    by rewrite create_not_null_args_lookup.
Qed.

Example create_payload_web :
  create_not_null_args (web 3) =
  {[ "cluster" := VStr "prod"; "desiredCount" := VInt 3;
     "enableECSManagedTags" := VBool true ]}.
Proof. reflexivity. Qed.

(** The two explicit keywords of the create call are no keys of
    [not_null_args]: the call never passes a keyword twice. *)
Lemma create_kwargs_no_clash (self : EcsService) :
  create_not_null_args self !! "serviceName" = None
  ∧ create_not_null_args self !! "taskDefinition" = None.
Proof.
  split; apply eq_None_not_Some; intros H;
    destruct (create_not_null_args_key _ _ H) as [f Hf];
    destruct f; discriminate Hf.
Qed.

(** The payload is a function of the declared values alone. *)
Lemma create_not_null_args_ext (s1 s2 : EcsService) :
  (∀ f, field_value f s1 = field_value f s2) →
  create_not_null_args s1 = create_not_null_args s2.
Proof.
  intros Hf. apply map_eq. intros k.
  destruct (create_not_null_args s1 !! k) as [v|] eqn:H1.
  - destruct (create_not_null_args_key s1 k) as [f ->]; [by rewrite H1|].
    by rewrite create_not_null_args_lookup, <- Hf, <- create_not_null_args_lookup.
  - destruct (create_not_null_args s2 !! k) as [v|] eqn:H2; [|done].
    destruct (create_not_null_args_key s2 k) as [f ->]; [by rewrite H2|].
    by rewrite <- H1, <- H2, !create_not_null_args_lookup.
Qed.

(** [_create] assigns no attribute but the cache. *)
Lemma _create_keeps_fields (client : AwsApiClient) (w : World) :
  with_active_resource None (this (_create client w).2)
  = with_active_resource None (this w).
Proof.
  rewrite _create_cases. simpl.
  destruct (client create_service _) as [e|r]; [done|].
  by destruct (is_not_None _).
Qed.

(** C7. Building the payload is deterministic and free of side effects:
    two objects with the same declared field values give identical
    payloads, whatever their caches; [_create] leaves every declared field
    of the object as it was (only the cache [active_resource] may differ
    afterwards), so that the payload and the whole request built from the
    object after the call are those built before it. *)
Theorem create_payload_deterministic (client : AwsApiClient) (w : World)
    (s1 s2 : EcsService) :
  ((∀ f, field_value f s1 = field_value f s2) →
   create_not_null_args s1 = create_not_null_args s2)
  ∧ with_active_resource None (this (_create client w).2)
    = with_active_resource None (this w)
  ∧ create_not_null_args (this (_create client w).2) = create_not_null_args (this w)
  ∧ create_kwargs (this (_create client w).2) = create_kwargs (this w).
Proof.
  split; [apply create_not_null_args_ext|].
  split; [apply _create_keeps_fields|].
  pose proof (_create_keeps_fields client w) as H.
  set (s' := this (_create client w).2) in *.
  change (create_not_null_args s') with (create_not_null_args (with_active_resource None s')).
  change (create_kwargs s') with (create_kwargs (with_active_resource None s')).
  by rewrite H.
Qed.

Lemma create_payload_deterministic_witness :
  create_not_null_args (web 3)
  = create_not_null_args
      (with_active_resource (Some (service_entry "web" "ACTIVE" 3)) (web 3))
  ∧ create_kwargs (this (_create absent_client (fresh (web 3))).2)
    = create_kwargs (web 3).
Proof.
  pose proof (create_payload_deterministic absent_client (fresh (web 3)) (web 3)
    (with_active_resource (Some (service_entry "web" "ACTIVE" 3)) (web 3)))
    as (H1 & _ & _ & H2).
  split; [apply H1; intros f; destruct f; reflexivity | exact H2].
Defined.

(** ** Update *)

(** C2, as the code has it. [_update] is a stub: whatever the object, its
    cache and the remote, it prints one line, issues no remote call,
    leaves the object alone and reports success. *)
Theorem update_is_a_stub (client : AwsApiClient) (w : World) :
  (_update client w).1 = inr true
  ∧ this (_update client w).2 = this w
  ∧ remote_calls (trace (_update client w).2) = remote_calls (trace w).
Proof.
  rewrite _update_cases. simpl. repeat split.
  unfold remote_calls. rewrite omap_app. simpl. by rewrite app_nil_r.
Qed.

(** C2 fails as stated: the object declares five tasks, the observed state
    has three, the remote would refuse any call, and [_update] reports
    success without having called it. *)
Lemma update_success_without_call :
  let w := fresh (with_active_resource (Some (service_entry "web" "ACTIVE" 3)) (web 5)) in
  field_value F_desired_count (this w) = Some (VInt 5)
  ∧ active_resource (this w) = Some (service_entry "web" "ACTIVE" 3)
  ∧ (∀ kwargs, denied_client update_service kwargs
               = inl (ClientError "AccessDeniedException" "User is not authorized."))
  ∧ (_update denied_client w).1 = inr true
  ∧ remote_calls (trace (_update denied_client w).2) = [].
Proof. repeat split. Qed.

(** ** Create *)

(** [create_response.get("service", {}) is not None] *)
Lemma service_entry_not_None (r : PyDict) :
  is_not_None (default (VDict ∅) (r !! "service")) = true
  ↔ r !! "service" ≠ Some VNone.
Proof.
  destruct (r !! "service") as [v|]; simpl; [|done].
  destruct v; simpl; split; try done; by intros [].
Qed.

(** C9. [_create] never raises, and it returns [True] exactly when the
    remote create call returns a response whose "service" entry is not
    [None]; a response without a "service" key counts as such. On success
    the cache holds the whole response. *)
Theorem create_true_iff (client : AwsApiClient) (w : World) :
  ((_create client w).1 = inr true
   ↔ ∃ r, client create_service (create_kwargs (this w)) = inr r
          ∧ r !! "service" ≠ Some VNone)
  ∧ ((_create client w).1 = inr true ∨ (_create client w).1 = inr false)
  ∧ (∀ r, client create_service (create_kwargs (this w)) = inr r →
          r !! "service" = None →
          (_create client w).1 = inr true
          ∧ active_resource (this (_create client w).2) = Some (VDict r)).
Proof.
  rewrite _create_cases. simpl.
  destruct (client create_service (create_kwargs (this w))) as [e|r]; simpl.
  - split; [|split]; [|by right|by intros r [=]].
    split; [done|]. by intros (r & [=] & _).
  - pose proof (service_entry_not_None r) as Hr.
    destruct (is_not_None (default (VDict ∅) (r !! "service"))) eqn:E; simpl.
    + split; [|split]; [|by left|by intros r' [= <-] _].
      split; [intros _; exists r; split; [done|by apply Hr]|done].
    + split; [|split]; [|by right|].
      * split; [done|]. intros (r' & [= <-] & Hne). by apply Hr in Hne.
      * intros r' [= <-] Hnone. rewrite Hnone in E. discriminate E.
Qed.

Lemma create_true_iff_witness :
  (_create terse_client (fresh (web 3))).1 = inr true
  ∧ active_resource (this (_create terse_client (fresh (web 3))).2)
    = Some (VDict {[ "ResponseMetadata" := VDict {[ "HTTPStatusCode" := VInt 200 ]} ]}).
Proof.
  apply (proj2 (proj2 (create_true_iff terse_client (fresh (web 3))))).
  - reflexivity.
  - reflexivity.
Defined.

(** C3, as the code has it. Whatever exception the remote create call
    raises, "already exists" included, and whatever the remote holds,
    [_create] reports failure and leaves the object as it was. *)
Theorem create_fails_on_exception (client : AwsApiClient) (w : World) (e : PyExn) :
  client create_service (create_kwargs (this w)) = inl e →
  (_create client w).1 = inr false ∧ this (_create client w).2 = this w.
Proof. intros He. rewrite _create_cases. simpl. by rewrite He. Qed.

Lemma create_fails_on_exception_witness :
  (_create occupied_client (fresh (web 3))).1 = inr false
  ∧ this (_create occupied_client (fresh (web 3))).2 = web 3.
Proof.
  apply (create_fails_on_exception occupied_client (fresh (web 3))
           (ClientError "InvalidParameterException"
                        "Creation of service was not idempotent.")).
  reflexivity.
Defined.

(** C3 fails as stated: the remote already holds an ACTIVE service of the
    same name in the same cluster, the create call is refused for that
    reason, and [_create] reports failure. *)
Lemma create_already_exists_fails :
  let w := fresh (web 3) in
  occupied_client create_service (create_kwargs (this w))
  = inl (ClientError "InvalidParameterException"
                     "Creation of service was not idempotent.")
  ∧ (_read occupied_client w).1 = inr (Some (service_entry "web" "ACTIVE" 3))
  ∧ (_create occupied_client w).1 = inr false.
Proof. cbv zeta. repeat apply conj; reflexivity. Qed.

(** ** Delete *)

(** C4, as the code has it. [_delete] never looks at the remote state: it
    reports success exactly when the remote delete call returns, and
    failure exactly when that call raises, for whatever reason. *)
Theorem delete_true_iff (client : AwsApiClient) (w : World) :
  ((_delete client w).1 = inr true
   ↔ ∃ r, client delete_service (delete_kwargs (this w)) = inr r)
  ∧ ((_delete client w).1 = inr false
     ↔ ∃ e, client delete_service (delete_kwargs (this w)) = inl e).
Proof.
  rewrite _delete_cases. simpl.
  destruct (client delete_service (delete_kwargs (this w))) as [e|r]; simpl.
  - split; split; try done; [by intros [? [=]] | by exists e].
  - split; split; try done; [by exists r | by intros [? [=]]].
Qed.

Lemma delete_true_iff_witness :
  (_delete absent_client (fresh (web 3))).1 = inr false
  ∧ (_delete occupied_client (fresh (web 3))).1 = inr true.
Proof.
  split.
  - apply (proj2 (delete_true_iff absent_client (fresh (web 3)))). by eexists.
  - apply (proj1 (delete_true_iff occupied_client (fresh (web 3)))). by eexists.
Defined.

(** C4 fails as stated: the service is absent (read finds nothing), the
    remote delete call raises for that reason, and [_delete] reports
    failure. *)
Lemma delete_absent_fails :
  let w := fresh (web 3) in
  (_read absent_client w).1 = inr None
  ∧ absent_client delete_service (delete_kwargs (this w))
    = inl (ClientError "ServiceNotFoundException" "Service not found.")
  ∧ (_delete absent_client w).1 = inr false.
Proof. cbv zeta. repeat apply conj; reflexivity. Qed.

(** C10. [_delete] assigns [None] to the cache before the remote delete
    call and never assigns it again: the cache is empty afterwards whether
    the call returned or raised, and when it raised [_delete] returns
    [False]. *)
Theorem delete_clears_cache_first (client : AwsApiClient) (w : World) :
  let kwargs := delete_kwargs (this w) in
  let w' := (_delete client w).2 in
  active_resource (this w') = None
  ∧ (∃ rest,
       trace w' = trace w ++
         [print_info_ev Deleting; Assign_active_resource None;
          Remote delete_service kwargs (client delete_service kwargs)] ++ rest
       ∧ cache_writes rest = [] ∧ remote_calls rest = [])
  ∧ (∀ e, client delete_service kwargs = inl e →
          (_delete client w).1 = inr false ∧ active_resource (this w') = None).
Proof.
  rewrite _delete_cases. simpl.
  destruct (client delete_service (delete_kwargs (this w))) as [e|r]; simpl.
  - split; [done|]. split; [|done]. by eexists.
  - split; [done|]. split; [|by intros e [=]]. by eexists.
Qed.

Lemma delete_clears_cache_first_witness :
  let w := fresh (with_active_resource (Some (service_entry "web" "ACTIVE" 3)) (web 3)) in
  (_delete denied_client w).1 = inr false
  ∧ active_resource (this (_delete denied_client w).2) = None.
Proof.
  apply (proj2 (proj2 (delete_clears_cache_first denied_client
    (fresh (with_active_resource (Some (service_entry "web" "ACTIVE" 3)) (web 3)))))
    (ClientError "AccessDeniedException" "User is not authorized.")).
  reflexivity.
Defined.

(** ** Read and the cache *)

(** [_read] never raises and returns what the cache holds when it ends. *)
Lemma _read_returns_cache (client : AwsApiClient) (w : World) :
  (_read client w).1 = inr (active_resource (this (_read client w).2)).
Proof.
  rewrite _read_cases. simpl.
  destruct (client describe_services _) as [e|r]; simpl; [done|].
  destruct (r !! "services") as [[| | | |l|]|]; simpl; try done.
  by destruct (for_resource_in _ l _) as [[e|[]] w2].
Qed.

(** When the describe call raises, [_read] leaves the object alone. *)
Lemma _read_raise_keeps (client : AwsApiClient) (w : World) (e : PyExn) :
  client describe_services (read_kwargs (this w)) = inl e →
  this (_read client w).2 = this w.
Proof. intros He. rewrite _read_cases. simpl. by rewrite He. Qed.

(** When the response names no ACTIVE entry of the service, [_read] leaves
    the object alone. *)
Lemma _read_no_entry_keeps (client : AwsApiClient) (w : World) (r : PyDict) :
  client describe_services (read_kwargs (this w)) = inr r →
  (∀ l, r !! "services" = Some (VList l) →
        Forall (λ v, is_active_entry (get_ecs_service_name (this w)) v = false) l) →
  this (_read client w).2 = this w.
Proof.
  intros Hr Hl. rewrite _read_cases. simpl. rewrite Hr.
  destruct (r !! "services") as [[| | | |l|]|]; simpl; try done.
  specialize (Hl l eq_refl).
  pose proof (for_resource_in_no_entry _ _
    {| this := this w; trace := trace w ++ read_prefix (read_kwargs (this w)) r |} Hl) as H.
  destruct (for_resource_in _ l _) as [[e|[]] w2]; simpl in *; by subst w2.
Qed.

(** C5, as the code has it. [_delete] always leaves the cache empty.
    [_read] returns the cache, which it overwrites only on a hit: when the
    describe response lists, after dicts that are not it, an entry with
    the name of the service and status ACTIVE, the cache holds the first
    such entry; when the describe call raises, when the first entry of the
    list that is not a dict comes before any hit, or when the response has
    no such entry at all, the cache keeps the value it had before the
    call. *)
Theorem cache_after_read_and_delete (client : AwsApiClient) (w : World) :
  let n := get_ecs_service_name (this w) in
  let before := λ v, is_dict v = true ∧ is_active_entry n v = false in
  active_resource (this (_delete client w).2) = None
  ∧ (_read client w).1 = inr (active_resource (this (_read client w).2))
  ∧ (∀ r pre x post,
       client describe_services (read_kwargs (this w)) = inr r →
       r !! "services" = Some (VList (pre ++ x :: post)) →
       Forall before pre →
       (is_active_entry n x = true →
        active_resource (this (_read client w).2) = Some x)
       ∧ (is_dict x = false →
          active_resource (this (_read client w).2) = active_resource (this w)))
  ∧ (∀ e, client describe_services (read_kwargs (this w)) = inl e →
          active_resource (this (_read client w).2) = active_resource (this w))
  ∧ (∀ r, client describe_services (read_kwargs (this w)) = inr r →
          (∀ l, r !! "services" = Some (VList l) →
                Forall (λ v, is_active_entry n v = false) l) →
          active_resource (this (_read client w).2) = active_resource (this w)).
Proof.
  intros n before. subst before n. split; [|split; [|split; [|split]]].
  - rewrite _delete_cases. simpl. by destruct (client delete_service _).
  - apply _read_returns_cache.
  - intros r pre x post Hr Hs Hpre. rewrite _read_cases. simpl. rewrite Hr, Hs.
    split.
    + intros Hx. by rewrite (for_resource_in_first _ pre x post _ Hpre Hx).
    + intros Hx.
      destruct (for_resource_in_not_dict _ pre x post
        {| this := this w; trace := trace w ++ read_prefix (read_kwargs (this w)) r |}
        Hpre Hx) as [m ->].
      done.
  - intros e He. by rewrite (_read_raise_keeps _ _ _ He).
  - intros r Hr Hl. by rewrite (_read_no_entry_keeps _ _ _ Hr Hl).
Qed.

Lemma cache_after_read_and_delete_witness :
  active_resource (this (_read occupied_client (fresh (web 3))).2)
  = Some (service_entry "web" "ACTIVE" 3)
  ∧ active_resource (this (_read denied_client (fresh (web 3))).2) = None
  ∧ active_resource (this (_read absent_client (fresh (web 3))).2) = None.
Proof.
  split; [|split].
  - pose proof (cache_after_read_and_delete occupied_client (fresh (web 3)))
      as (_ & _ & H & _).
    apply (H {[ "services" := VList [service_entry "web" "ACTIVE" 3] ]}
             [] (service_entry "web" "ACTIVE" 3) []).
    + reflexivity.
    + reflexivity.
    + constructor.
    + reflexivity.
  - pose proof (cache_after_read_and_delete denied_client (fresh (web 3)))
      as (_ & _ & _ & H & _).
    apply (H (ClientError "AccessDeniedException" "User is not authorized.")).
    reflexivity.
  - pose proof (cache_after_read_and_delete absent_client (fresh (web 3)))
      as (_ & _ & _ & _ & H).
    apply (H {[ "services" := VList [];
                "failures" := VList [VDict {[ "reason" := VStr "MISSING" ]}] ]}).
    + reflexivity.
    + intros l Hl. vm_compute in Hl. injection Hl as <-. constructor.
Defined.

(** C5 fails as stated: after a successful create the cache holds the
    create response; a describe that lists no service (the remote has not
    caught up, or the service is gone) leaves that value in the cache, and
    [_read] returns it. *)
Lemma read_keeps_stale_cache :
  let w1 := (_create absent_client (fresh (web 3))).2 in
  let response := {[ "service" := service_entry "web" "ACTIVE" 3 ]} in
  active_resource (this w1) = Some (VDict response)
  ∧ absent_client describe_services (read_kwargs (this w1))
    = inr {[ "services" := VList [];
             "failures" := VList [VDict {[ "reason" := VStr "MISSING" ]}] ]}
  ∧ active_resource (this (_read absent_client w1).2) = Some (VDict response)
  ∧ (_read absent_client w1).1 = inr (Some (VDict response)).
Proof. cbv zeta. repeat apply conj; reflexivity. Qed.

(** ** Failures of the remote *)

(** C6, as the code has it. A remote create or delete call that raises
    makes the method return [False] and print the exception as an error.
    A describe call that raises does not show in the result of [_read]: it
    returns the cached value and leaves the object alone, and the
    exception is printed as an error unless it is a [ClientError], which
    is only logged at debug level. *)
Theorem remote_failure_in_result (client : AwsApiClient) (w : World) (e : PyExn) :
  (client create_service (create_kwargs (this w)) = inl e →
   (_create client w).1 = inr false
   ∧ print_error_ev (Exc e) ∈ trace (_create client w).2)
  ∧ (client delete_service (delete_kwargs (this w)) = inl e →
     (_delete client w).1 = inr false
     ∧ print_error_ev (Exc e) ∈ trace (_delete client w).2)
  ∧ (client describe_services (read_kwargs (this w)) = inl e →
     (_read client w).1 = inr (active_resource (this w))
     ∧ this (_read client w).2 = this w
     ∧ trace (_read client w).2 = trace w ++
         [logger_debug_ev Reading;
          Remote describe_services (read_kwargs (this w)) (inl e)]
         ++ (if is_ClientError e then [logger_debug_ev (ClientError_line e)]
             else [print_error_ev Error_reading; print_error_ev (Exc e)])).
Proof.
  split; [|split]; intros He.
  - rewrite _create_cases. simpl. rewrite He. simpl. split; [done|].
    rewrite elem_of_app. right. set_solver.
  - rewrite _delete_cases. simpl. rewrite He. simpl. split; [done|].
    rewrite elem_of_app. right. set_solver.
  - rewrite _read_cases. simpl. by rewrite He.
Qed.

Lemma remote_failure_in_result_witness :
  let w := fresh (web 3) in
  let e := ClientError "AccessDeniedException" "User is not authorized." in
  (_create denied_client w).1 = inr false
  ∧ (_delete denied_client w).1 = inr false
  ∧ (_read denied_client w).1 = inr None
  ∧ trace (_read denied_client w).2 =
      [logger_debug_ev Reading;
       Remote describe_services (read_kwargs (web 3)) (inl e);
       logger_debug_ev (ClientError_line e)].
Proof.
  intros w e.
  destruct (remote_failure_in_result denied_client w e) as (Hc & Hd & Hr).
  destruct (Hc eq_refl) as [Hc1 _]. destruct (Hd eq_refl) as [Hd1 _].
  destruct (Hr eq_refl) as (Hr1 & _ & Hr3).
  split; [exact Hc1|]. split; [exact Hd1|]. split; [exact Hr1|exact Hr3].
Defined.

(** C6 fails as stated: a describe call that is denied and a describe call
    that finds the service absent give the same result of [_read] and the
    same object. *)
Lemma read_failure_looks_absent :
  let w := fresh (web 3) in
  denied_client describe_services (read_kwargs (this w))
  = inl (ClientError "AccessDeniedException" "User is not authorized.")
  ∧ absent_client describe_services (read_kwargs (this w))
    = inr {[ "services" := VList [];
             "failures" := VList [VDict {[ "reason" := VStr "MISSING" ]}] ]}
  ∧ (_read denied_client w).1 = inr None
  ∧ (_read absent_client w).1 = inr None
  ∧ this (_read denied_client w).2 = this (_read absent_client w).2.
Proof. cbv zeta. repeat apply conj; reflexivity. Qed.

(** ** References to the cluster and the task definition *)

(** The resolvers give the string itself, the name of the cluster object or
    the family of the task definition object, and nothing for an unset
    reference. *)
Lemma get_ecs_cluster_name_resolves (self : EcsService) :
  get_ecs_cluster_name self =
  match cluster self with
  | Some (inr s) => Some s
  | Some (inl c) => Some (EcsCluster.name c)
  | None => None
  end.
Proof. unfold get_ecs_cluster_name. by destruct (cluster self) as [[?|?]|]. Qed.

Lemma get_ecs_task_definition_resolves (self : EcsService) :
  get_ecs_task_definition self =
  match task_definition self with
  | Some (inr s) => Some s
  | Some (inl td) => Some (EcsTaskDefinition.task_family td)
  | None => None
  end.
Proof. unfold get_ecs_task_definition. by destruct (task_definition self) as [[?|?]|]. Qed.

(** The key "cluster" is in a request exactly when the cluster is set. *)
Lemma cluster_key (self : EcsService) :
  create_kwargs self !! "cluster" = VStr <$> get_ecs_cluster_name self
  ∧ read_kwargs self !! "cluster" = VStr <$> get_ecs_cluster_name self
  ∧ delete_kwargs self !! "cluster" = VStr <$> get_ecs_cluster_name self.
Proof.
  unfold create_kwargs, read_kwargs, read_not_null_args, delete_kwargs,
    delete_not_null_args, create_not_null_args.
  repeat split; repeat (rewrite lookup_insert_ne by str_ne); skip_other_keys;
    by rewrite lookup_set_if_not_None_eq.
Qed.

(** The key "taskDefinition" is in every create request, with [None] for
    an unset task definition; the other requests do not have it. *)
Lemma task_definition_key (self : EcsService) :
  create_kwargs self !! "taskDefinition"
  = Some (opt_val VStr (get_ecs_task_definition self))
  ∧ read_kwargs self !! "taskDefinition" = None
  ∧ delete_kwargs self !! "taskDefinition" = None.
Proof.
  unfold create_kwargs, read_kwargs, read_not_null_args, delete_kwargs,
    delete_not_null_args.
  repeat split; repeat (rewrite lookup_insert_ne by str_ne); skip_other_keys;
    [by rewrite lookup_insert_eq|done..].
Qed.

(** C1, at a descriptor that leaves [task_definition] unset. The payload
    [_create] sends holds every field of the table as the claim says, the
    declared value under the wire name and nothing for an unset field; but
    the unset task definition is a key of it all the same,
    "taskDefinition", with [None]. *)
Theorem create_request_sends_unset_task_definition (client : AwsApiClient) (w : World) :
  task_definition (this w) = None →
  let kwargs := create_kwargs (this w) in
  remote_calls (trace (_create client w).2)
  = remote_calls (trace w) ++ [(create_service, kwargs)]
  ∧ kwargs !! "taskDefinition" = Some VNone
  ∧ (∀ f, kwargs !! wire_name f = field_value f (this w)).
Proof.
  intros Htd kwargs. subst kwargs. split; [apply _create_remote_calls|]. split.
  - destruct (task_definition_key (this w)) as [-> _].
    unfold get_ecs_task_definition. by rewrite Htd.
  - intros f. unfold create_kwargs.
    rewrite !lookup_insert_ne by (destruct f; str_ne).
    apply create_not_null_args_lookup.
Qed.

Lemma create_request_sends_unset_task_definition_witness :
  remote_calls (trace (_create terse_client (fresh (EcsService_init "web"))).2)
  = [(create_service, create_kwargs (EcsService_init "web"))]
  ∧ create_kwargs (EcsService_init "web") !! "taskDefinition" = Some VNone
  ∧ (∀ f, create_kwargs (EcsService_init "web") !! wire_name f
          = field_value f (EcsService_init "web")).
Proof.
  apply (create_request_sends_unset_task_definition terse_client
           (fresh (EcsService_init "web"))).
  reflexivity.
Defined.

(** C8, at [EcsService(name="web")]: the task definition is unset and
    resolves to nothing, yet the create request carries the key
    "taskDefinition", with [None]; the unset cluster is left out. *)
Theorem create_sends_None_task_definition :
  let s := EcsService_init "web" in
  let kwargs := {[ "serviceName" := VStr "web"; "taskDefinition" := VNone ]} in
  get_ecs_task_definition s = None
  ∧ get_ecs_cluster_name s = None
  ∧ create_kwargs s = kwargs
  ∧ kwargs !! "taskDefinition" = Some VNone
  ∧ remote_calls (trace (_create terse_client (fresh s)).2) = [(create_service, kwargs)].
Proof. cbv zeta. repeat apply conj; reflexivity. Qed.

(** * Further properties of the class *)

(** ** The loop and the worlds of [_read] *)

Lemma for_resource_in_outcome (n : string) (l : list PyVal) (w : World) :
  for_resource_in n l w =
  match loop_outcome n l with
  | inl e => (inl e, w)
  | inr None => (inr (), w)
  | inr (Some x) =>
    (inr (), {| this := with_active_resource (Some x) (this w);
                trace := trace w ++ [Assign_active_resource (Some x)] |})
  end.
Proof.
  induction l as [|v l IH]; simpl; [done|].
  destruct v as [| | | | |d]; try done. py_unfold.
  destruct (py_eq_str (default VNone (d !! "serviceName")) n); simpl; [|done].
  by destruct (py_eq_str (default VNone (d !! "status")) "ACTIVE").
Qed.

Lemma loop_outcome_Some (n : string) (l : list PyVal) (x : PyVal) :
  loop_outcome n l = inr (Some x) → x ∈ l ∧ is_active_entry n x = true.
Proof.
  induction l as [|v l IH]; intros H; [done|].
  destruct v as [| | | | |d]; try done. cbn [loop_outcome] in H.
  destruct (is_active_entry n (VDict d)) eqn:Hd.
  - injection H as <-. split; [apply list_elem_of_here|done].
  - destruct (IH H) as [Hx Ha]. split; [by apply list_elem_of_further|done].
Qed.

(** [_read] with the loop replaced by what it comes to. *)
Lemma _read_world (client : AwsApiClient) (w : World) :
  _read client w =
  let kwargs := read_kwargs (this w) in
  match client describe_services kwargs with
  | inr r =>
    let tr := trace w ++ read_prefix kwargs r in
    match r !! "services" with
    | Some (VList l) =>
      match loop_outcome (get_ecs_service_name (this w)) l with
      | inr (Some x) =>
        (inr (Some x),
         {| this := with_active_resource (Some x) (this w);
            trace := tr ++ [Assign_active_resource (Some x)] |})
      | inr None => (inr (active_resource (this w)), {| this := this w; trace := tr |})
      | inl e =>
        (inr (active_resource (this w)),
         {| this := this w; trace := tr ++ read_handler_lines e |})
      end
    | _ => (inr (active_resource (this w)), {| this := this w; trace := tr |})
    end
  | inl e =>
    (inr (active_resource (this w)),
     {| this := this w;
        trace := trace w ++
          [logger_debug_ev Reading; Remote describe_services kwargs (inl e)]
          ++ read_handler_lines e |})
  end.
Proof.
  rewrite _read_cases. simpl.
  destruct (client describe_services _) as [e|r]; [done|].
  destruct (r !! "services") as [[| | | |l|]|]; try done.
  rewrite for_resource_in_outcome.
  by destruct (loop_outcome _ l) as [e|[x|]].
Qed.

(** The requests are built from the declared fields alone. *)
Lemma requests_of_fields (s1 s2 : EcsService) :
  with_active_resource None s1 = with_active_resource None s2 →
  get_ecs_service_name s1 = get_ecs_service_name s2
  ∧ create_kwargs s1 = create_kwargs s2
  ∧ read_kwargs s1 = read_kwargs s2
  ∧ delete_kwargs s1 = delete_kwargs s2.
Proof.
  intros H.
  change (get_ecs_service_name s1) with (get_ecs_service_name (with_active_resource None s1)).
  change (create_kwargs s1) with (create_kwargs (with_active_resource None s1)).
  change (read_kwargs s1) with (read_kwargs (with_active_resource None s1)).
  change (delete_kwargs s1) with (delete_kwargs (with_active_resource None s1)).
  by rewrite H.
Qed.

Lemma _read_keeps_fields (client : AwsApiClient) (w : World) :
  with_active_resource None (this (_read client w).2)
  = with_active_resource None (this w).
Proof.
  rewrite _read_world. simpl.
  destruct (client describe_services _) as [e|r]; [done|].
  destruct (r !! "services") as [[| | | |l|]|]; try done.
  by destruct (loop_outcome _ l) as [e|[x|]].
Qed.

Lemma _delete_keeps_fields (client : AwsApiClient) (w : World) :
  with_active_resource None (this (_delete client w).2)
  = with_active_resource None (this w).
Proof. rewrite _delete_cases. simpl. by destruct (client delete_service _). Qed.

Lemma _read_remote_calls (client : AwsApiClient) (w : World) :
  remote_calls (trace (_read client w).2)
  = remote_calls (trace w) ++ [(describe_services, read_kwargs (this w))].
Proof.
  rewrite _read_world. simpl. unfold remote_calls, read_handler_lines, read_prefix.
  destruct (client describe_services _) as [e|r]; simpl.
  - rewrite omap_app. simpl. by destruct (is_ClientError e).
  - destruct (r !! "services") as [[| | | |l|]|]; simpl;
      rewrite ?omap_app; simpl; rewrite ?app_nil_r; try done.
    destruct (loop_outcome _ l) as [e|[x|]]; simpl;
      rewrite ?omap_app; simpl; rewrite ?app_nil_r; try done.
    destruct (is_ClientError e); simpl; by rewrite app_nil_r.
Qed.

Lemma _delete_remote_calls (client : AwsApiClient) (w : World) :
  remote_calls (trace (_delete client w).2)
  = remote_calls (trace w) ++ [(delete_service, delete_kwargs (this w))].
Proof.
  rewrite _delete_cases. simpl. unfold remote_calls.
  destruct (client delete_service _) as [e|r]; simpl; by rewrite omap_app.
Qed.

(** ** The requests *)

(** X1. The three requests name the service alike, by the resolved name:
    [ecs_service_name] when it is a non-empty string, [name] when it is
    unset or empty; so a non-empty [name] is never replaced by an empty
    one. *)
Theorem service_name_in_requests (self : EcsService) :
  let n := get_ecs_service_name self in
  create_kwargs self !! "serviceName" = Some (VStr n)
  ∧ read_kwargs self !! "services" = Some (VList [VStr n])
  ∧ delete_kwargs self !! "service" = Some (VStr n)
  ∧ (∀ s, ecs_service_name self = Some s → s ≠ "" → n = s)
  ∧ (ecs_service_name self = None ∨ ecs_service_name self = Some "" → n = name self)
  ∧ (name self ≠ "" → n ≠ "").
Proof.
  intros n. subst n. unfold create_kwargs, read_kwargs, delete_kwargs.
  rewrite !lookup_insert_eq. unfold get_ecs_service_name.
  repeat split.
  - intros s -> Hs. by destruct s.
  - by intros [->| ->].
  - intros Hn. destruct (ecs_service_name self) as [[|a s]|]; simpl; done.
Qed.

Lemma service_name_in_requests_witness :
  get_ecs_service_name (renamed (web 3) "web-v2") = "web-v2"
  ∧ get_ecs_service_name (renamed (web 3) "") = "web"
  ∧ get_ecs_service_name (renamed (web 3) "") ≠ "".
Proof.
  split; [|split].
  - apply (proj1 (proj2 (proj2 (proj2
      (service_name_in_requests (renamed (web 3) "web-v2"))))) "web-v2");
      [reflexivity|discriminate].
  - apply (proj1 (proj2 (proj2 (proj2 (proj2
      (service_name_in_requests (renamed (web 3) ""))))))).
    right. reflexivity.
  - apply (proj2 (proj2 (proj2 (proj2 (proj2
      (service_name_in_requests (renamed (web 3) ""))))))).
    discriminate.
Defined.

(** X2. The key "cluster" is in the create, the describe and the delete
    request alike: absent when the cluster is unset, and otherwise the
    string as given (an empty one too) or the name of the cluster
    object. *)
Theorem cluster_scope_consistent (self : EcsService) :
  let c := match cluster self with
           | Some (inl o) => Some (VStr (EcsCluster.name o))
           | Some (inr s) => Some (VStr s)
           | None => None
           end in
  create_kwargs self !! "cluster" = c
  ∧ read_kwargs self !! "cluster" = c
  ∧ delete_kwargs self !! "cluster" = c.
Proof.
  intros c. subst c. destruct (cluster_key self) as (-> & -> & ->).
  rewrite get_ecs_cluster_name_resolves.
  by destruct (cluster self) as [[?|?]|].
Qed.

Lemma is_Some_lookup_insert (k k' : string) (x : PyVal) (d : PyDict) :
  is_Some (<[k := x]> d !! k') ↔ k' = k ∨ is_Some (d !! k').
Proof.
  destruct (decide (k = k')) as [->|Hne].
  - rewrite lookup_insert_eq. split; [by left|by eexists].
  - rewrite lookup_insert_ne by done. split; [by right|]. by intros [->|H].
Qed.

Lemma is_Some_lookup_set_if_not_None {A} (k k' : string) (v : option A)
    (inj : A → PyVal) (d : PyDict) :
  d !! k = None →
  is_Some (set_if_not_None k v inj d !! k') ↔ (k' = k ∧ is_Some v) ∨ is_Some (d !! k').
Proof.
  intros Hd. destruct (decide (k = k')) as [<-|Hne].
  - rewrite lookup_set_if_not_None_eq, Hd by done. rewrite fmap_is_Some.
    split; [by left|]. intros [[_ H]|H]; [done|by destruct H].
  - rewrite lookup_set_if_not_None_ne by done. split; [by right|].
    by intros [[-> _]|H].
Qed.

Lemma is_Some_get_ecs_cluster_name (self : EcsService) :
  is_Some (get_ecs_cluster_name self) ↔ is_Some (cluster self).
Proof.
  unfold get_ecs_cluster_name.
  destruct (cluster self) as [[?|?]|]; [split; intros _; by eexists..|done].
Qed.

(** X3. The describe request has the key "services" and, when the cluster
    is set, "cluster", and no other key; the delete request has "service",
    "cluster" when the cluster is set, "force" when [force_delete] is set,
    and no other key; "force" carries the flag as given, [False] too. *)
Theorem read_delete_request_keys (self : EcsService) (k : string) :
  (is_Some (read_kwargs self !! k)
   ↔ k = "services" ∨ (k = "cluster" ∧ is_Some (cluster self)))
  ∧ (is_Some (delete_kwargs self !! k)
     ↔ k = "service" ∨ (k = "cluster" ∧ is_Some (cluster self))
       ∨ (k = "force" ∧ is_Some (force_delete self)))
  ∧ delete_kwargs self !! "force" = VBool <$> force_delete self.
Proof.
  unfold read_kwargs, read_not_null_args, delete_kwargs, delete_not_null_args.
  assert (∀ j : string, ¬ is_Some ((∅ : PyDict) !! j)) as Hempty.
  { intros j. rewrite lookup_empty. by intros [? [=]]. }
  split; [|split].
  - rewrite is_Some_lookup_insert, is_Some_lookup_set_if_not_None by apply lookup_empty.
    rewrite is_Some_get_ecs_cluster_name. specialize (Hempty k). tauto.
  - rewrite is_Some_lookup_insert, is_Some_lookup_set_if_not_None.
    + rewrite is_Some_lookup_set_if_not_None by apply lookup_empty.
      rewrite is_Some_get_ecs_cluster_name. specialize (Hempty k). tauto.
    + rewrite lookup_set_if_not_None_ne by str_ne. apply lookup_empty.
  - rewrite lookup_insert_ne by str_ne.
    rewrite lookup_set_if_not_None_eq; [done|].
    rewrite lookup_set_if_not_None_ne by str_ne. apply lookup_empty.
Qed.

Lemma create_not_null_args_dom (self : EcsService) :
  dom (create_not_null_args self) = list_to_set (wire_name <$> set_fields self).
Proof.
  apply set_eq. intros k.
  rewrite elem_of_dom, elem_of_list_to_set, list_elem_of_fmap. split.
  - intros Hk. destruct (create_not_null_args_key _ _ Hk) as [f ->].
    exists f. split; [done|]. apply list_elem_of_filter.
    split; [|apply all_fields_complete].
    by rewrite <- create_not_null_args_lookup.
  - intros (f & -> & Hf). apply list_elem_of_filter in Hf as [Hf _].
    by rewrite create_not_null_args_lookup.
Qed.

Lemma all_fields_NoDup : NoDup all_fields.
Proof.
  unfold all_fields.
  repeat (apply NoDup_cons; split;
    [intros H; repeat (apply elem_of_cons in H as [H|H]; [discriminate H|]);
     by apply elem_of_nil in H|]).
  apply NoDup_nil_2.
Qed.

(** X4. No two fields share a key and none takes the place of the two
    explicit keywords: [not_null_args] has as many keys as there are set
    fields, and the create request has exactly two more, at most 22. *)
Theorem create_request_size (self : EcsService) :
  size (create_not_null_args self) = length (set_fields self)
  ∧ size (create_kwargs self) = 2 + length (set_fields self)
  ∧ size (create_kwargs self) ≤ 22.
Proof.
  assert (size (create_not_null_args self) = length (set_fields self)) as Hsize.
  { rewrite <- size_dom, create_not_null_args_dom, size_list_to_set, length_fmap; [done|].
    apply NoDup_fmap_2; [intros f g; apply wire_name_inj|].
    apply NoDup_filter, all_fields_NoDup. }
  destruct (create_kwargs_no_clash self) as [Hs Ht].
  assert (size (create_kwargs self) = 2 + length (set_fields self)) as Hk.
  { unfold create_kwargs. rewrite !map_size_insert_None, Hsize; [done|done|].
    by rewrite lookup_insert_ne by str_ne. }
  split; [done|]. split; [done|]. rewrite Hk.
  pose proof (length_filter (λ f, is_Some (field_value f self)) all_fields) as Hle.
  unfold set_fields. simpl in Hle. lia.
Qed.

(** ** What no method does *)

(** X6. [_read], [_delete] and [_update] assign no attribute of the object
    but the cache: every declared field is afterwards what it was. *)
Theorem methods_keep_fields (client : AwsApiClient) (w : World) :
  with_active_resource None (this (_read client w).2) = with_active_resource None (this w)
  ∧ with_active_resource None (this (_delete client w).2) = with_active_resource None (this w)
  ∧ this (_update client w).2 = this w.
Proof.
  split; [apply _read_keeps_fields|]. split; [apply _delete_keeps_fields|done].
Qed.

(** ** The result of a read *)

Lemma for_resource_in_skip (n : string) (d : PyDict) (rest : list PyVal) (w : World) :
  is_active_entry n (VDict d) = false →
  for_resource_in n (VDict d :: rest) w = for_resource_in n rest w.
Proof.
  intros Hd. rewrite !for_resource_in_outcome. cbn [loop_outcome]. by rewrite Hd.
Qed.

(** X7. An entry of the describe response that lacks the key "serviceName"
    or the key "status" raises nothing: the loop passes over it, as it
    does over an entry of another name or of a status other than
    "ACTIVE". *)
Theorem loop_skips_incomplete_entry (n : string) (d : PyDict) (rest : list PyVal)
    (w : World) :
  d !! "serviceName" = None ∨ d !! "status" = None
  ∨ d !! "serviceName" ≠ Some (VStr n) ∨ d !! "status" ≠ Some (VStr "ACTIVE") →
  for_resource_in n (VDict d :: rest) w = for_resource_in n rest w.
Proof.
  intros H. apply for_resource_in_skip. simpl. apply andb_false_iff.
  destruct (d !! "serviceName") as [v1|] eqn:H1; [|by left].
  destruct (d !! "status") as [v2|] eqn:H2; [|by right].
  destruct H as [[=]|[[=]|[H|H]]].
  - left. destruct v1; simpl; try done.
    apply String.eqb_neq. intros ->. by apply H.
  - right. destruct v2; simpl; try done.
    apply String.eqb_neq. intros ->. by apply H.
Qed.

Lemma loop_skips_incomplete_entry_witness :
  for_resource_in "web"
    [VDict {[ "serviceName" := VStr "web" ]}; service_entry "web" "ACTIVE" 3] (fresh (web 3))
  = for_resource_in "web" [service_entry "web" "ACTIVE" 3] (fresh (web 3)).
Proof.
  apply (loop_skips_incomplete_entry "web" {[ "serviceName" := VStr "web" ]}).
  right. left. reflexivity.
Defined.

(** X8. Whatever [_read] leaves in the cache is the value that was there
    before, or an entry of the present describe response that has the name
    of the service and status ACTIVE. In particular [_read] never empties
    a cache that holds a value. *)
Theorem read_caches_only_active_entry (client : AwsApiClient) (w : World) :
  let w' := (_read client w).2 in
  (active_resource (this w') = active_resource (this w)
   ∨ ∃ r l x,
       client describe_services (read_kwargs (this w)) = inr r
       ∧ r !! "services" = Some (VList l)
       ∧ x ∈ l
       ∧ is_active_entry (get_ecs_service_name (this w)) x = true
       ∧ active_resource (this w') = Some x)
  ∧ (is_Some (active_resource (this w)) → is_Some (active_resource (this w'))).
Proof.
  simpl. rewrite _read_world. simpl.
  destruct (client describe_services _) as [e|r] eqn:Hr; simpl; [by split; [left|]|].
  destruct (r !! "services") as [[| | | |l|]|] eqn:Hs; simpl; try (by split; [left|]).
  destruct (loop_outcome _ l) as [e|[x|]] eqn:Hl; simpl; try (by split; [left|]).
  destruct (loop_outcome_Some _ _ _ Hl) as [Hx Ha].
  split; [|by eexists]. right. by exists r, l, x.
Qed.

Lemma read_caches_only_active_entry_witness :
  is_Some (active_resource
    (this (_read absent_client
       (fresh (with_active_resource (Some (service_entry "web" "ACTIVE" 3)) (web 3)))).2)).
Proof.
  apply (proj2 (read_caches_only_active_entry absent_client
    (fresh (with_active_resource (Some (service_entry "web" "ACTIVE" 3)) (web 3))))).
  by eexists.
Defined.

(** X9. [_read] makes exactly one remote call, a describe of the service
    in its cluster, and assigns the cache at most once. *)
Theorem read_one_describe_call (client : AwsApiClient) (w : World) :
  let w' := (_read client w).2 in
  remote_calls (trace w')
  = remote_calls (trace w) ++ [(describe_services, read_kwargs (this w))]
  ∧ (cache_writes (trace w') = cache_writes (trace w)
     ∨ ∃ x, cache_writes (trace w') = cache_writes (trace w) ++ [Some x]
            ∧ active_resource (this w') = Some x).
Proof.
  simpl. split; [apply _read_remote_calls|].
  rewrite _read_world. simpl. unfold cache_writes, read_prefix, read_handler_lines.
  destruct (client describe_services _) as [e|r]; simpl.
  - left. rewrite omap_app. simpl. destruct (is_ClientError e); simpl; by rewrite app_nil_r.
  - destruct (r !! "services") as [[| | | |l|]|]; simpl;
      try (left; rewrite omap_app; simpl; by rewrite app_nil_r).
    destruct (loop_outcome _ l) as [e|[x|]]; simpl.
    + left. rewrite !omap_app. simpl.
      destruct (is_ClientError e); simpl; by rewrite !app_nil_r.
    + right. exists x. rewrite !omap_app. simpl. by rewrite app_nil_r.
    + left. rewrite omap_app. simpl. by rewrite app_nil_r.
Qed.

(** X10. Reading again changes nothing: a second [_read] that gets the
    describe response of the first one returns the same value and leaves
    the object as the first read left it. *)
Theorem read_twice_same_response (c1 c2 : AwsApiClient) (w : World) :
  let w1 := (_read c1 w).2 in
  c2 describe_services (read_kwargs (this w))
  = c1 describe_services (read_kwargs (this w)) →
  (_read c2 w1).1 = (_read c1 w).1 ∧ this (_read c2 w1).2 = this w1.
Proof.
  simpl. intros Hc.
  destruct (requests_of_fields _ _ (_read_keeps_fields c1 w)) as (Hn & _ & Hk & _).
  rewrite (_read_world c2). simpl. rewrite Hk, Hc, Hn. clear Hk Hn Hc.
  rewrite (_read_world c1). simpl.
  destruct (c1 describe_services _) as [e|r]; simpl; [done|].
  destruct (r !! "services") as [[| | | |l|]|]; simpl; try done.
  by destruct (loop_outcome _ l) as [e|[x|]].
Qed.

Lemma read_twice_same_response_witness :
  (_read occupied_client (_read occupied_client (fresh (web 3))).2).1
  = (_read occupied_client (fresh (web 3))).1.
Proof.
  apply (read_twice_same_response occupied_client occupied_client (fresh (web 3))).
  reflexivity.
Defined.

(** ** The result of a create and of a delete *)

(** X11. [_create] changes the object only when it succeeds: on [True] the
    cache holds the whole create response, not its "service" entry; on
    [False] the object is as it was. *)
Theorem create_changes_cache_iff_success (client : AwsApiClient) (w : World) :
  ((_create client w).1 = inr true →
   ∃ r, client create_service (create_kwargs (this w)) = inr r
        ∧ this (_create client w).2 = with_active_resource (Some (VDict r)) (this w))
  ∧ ((_create client w).1 = inr false → this (_create client w).2 = this w).
Proof.
  rewrite _create_cases. simpl.
  destruct (client create_service _) as [e|r]; simpl; [done|].
  destruct (is_not_None _); simpl; [|done].
  split; [|done]. intros _. by exists r.
Qed.

Lemma create_changes_cache_iff_success_witness :
  ∃ r, absent_client create_service (create_kwargs (web 3)) = inr r
       ∧ this (_create absent_client (fresh (web 3))).2
         = with_active_resource (Some (VDict r)) (web 3).
Proof.
  apply (proj1 (create_changes_cache_iff_success absent_client (fresh (web 3)))).
  reflexivity.
Defined.

(** X12. [_create] and [_delete] print error lines exactly when the remote
    call raised, the exception last. A create response whose "service"
    entry is [None] therefore makes [_create] return [False] without a
    word on the error console. *)
Theorem error_lines_iff_raised (client : AwsApiClient) (w : World) :
  error_lines (trace (_create client w).2)
  = error_lines (trace w) ++
    match client create_service (create_kwargs (this w)) with
    | inl e => [could_not_be_created; Exc e]
    | inr _ => []
    end
  ∧ error_lines (trace (_delete client w).2)
    = error_lines (trace w) ++
      match client delete_service (delete_kwargs (this w)) with
      | inl e => [could_not_be_deleted; Please_try_again; Exc e]
      | inr _ => []
      end
  ∧ (∀ r, client create_service (create_kwargs (this w)) = inr r →
          r !! "service" = Some VNone →
          (_create client w).1 = inr false
          ∧ error_lines (trace (_create client w).2) = error_lines (trace w)).
Proof.
  assert (error_lines (trace (_create client w).2)
    = error_lines (trace w) ++
      match client create_service (create_kwargs (this w)) with
      | inl e => [could_not_be_created; Exc e]
      | inr _ => []
      end) as Hc.
  { rewrite _create_cases. simpl. unfold error_lines.
    destruct (client create_service _) as [e|r]; simpl; [by rewrite omap_app|].
    destruct (is_not_None _); simpl; by rewrite omap_app. }
  split; [exact Hc|]. split.
  - rewrite _delete_cases. simpl. unfold error_lines.
    destruct (client delete_service _) as [e|r]; simpl; by rewrite omap_app.
  - intros r Hr Hs. rewrite Hc, Hr, app_nil_r. split; [|done].
    rewrite _create_cases. simpl. by rewrite Hr, Hs.
Qed.

Lemma error_lines_iff_raised_witness :
  (_create none_client (fresh (web 3))).1 = inr false
  ∧ error_lines (trace (_create none_client (fresh (web 3))).2) = [].
Proof.
  apply (proj2 (proj2 (error_lines_iff_raised none_client (fresh (web 3))))
           {[ "service" := VNone ]}); reflexivity.
Defined.

(** ** Methods in a row *)

(** X13. A create, a read and a delete in a row, each against whatever the
    remote is by then: three remote calls are made, in that order, each
    built from the declared fields, whatever the calls before returned or
    raised; the cache is empty at the end and the fields are as they
    were. *)
Theorem create_read_delete_calls (c1 c2 c3 : AwsApiClient) (w : World) :
  let w1 := (_create c1 w).2 in
  let w2 := (_read c2 w1).2 in
  let w3 := (_delete c3 w2).2 in
  remote_calls (trace w3)
  = remote_calls (trace w) ++
    [(create_service, create_kwargs (this w));
     (describe_services, read_kwargs (this w));
     (delete_service, delete_kwargs (this w))]
  ∧ this w3 = with_active_resource None (this w).
Proof.
  simpl.
  pose proof (_create_keeps_fields c1 w) as H1.
  pose proof (_read_keeps_fields c2 (_create c1 w).2) as H2.
  rewrite H1 in H2.
  destruct (requests_of_fields _ _ H1) as (_ & _ & Hr & _).
  destruct (requests_of_fields _ _ H2) as (_ & _ & _ & Hd).
  split.
  - rewrite _delete_remote_calls, _read_remote_calls, _create_remote_calls, Hr, Hd.
    by rewrite <- !app_assoc.
  - rewrite <- H2. rewrite _delete_cases. simpl. by destruct (c3 delete_service _).
Qed.

(** X14. After a delete, a read that finds no ACTIVE entry of the service,
    or whose describe call raises, returns [None], whatever was cached
    before the delete and whether or not the delete succeeded. *)
Theorem delete_then_read_absent (c1 c2 : AwsApiClient) (w : World) :
  (∃ e, c2 describe_services (read_kwargs (this w)) = inl e)
  ∨ (∃ r, c2 describe_services (read_kwargs (this w)) = inr r
          ∧ ∀ l, r !! "services" = Some (VList l) →
                 Forall (λ v, is_active_entry (get_ecs_service_name (this w)) v = false) l) →
  (_read c2 (_delete c1 w).2).1 = inr None.
Proof.
  intros H. rewrite _read_returns_cache.
  destruct (requests_of_fields _ _ (_delete_keeps_fields c1 w)) as (Hn & _ & Hk & _).
  assert (active_resource (this (_delete c1 w).2) = None) as Hnone.
  { rewrite _delete_cases. simpl. by destruct (c1 delete_service _). }
  destruct H as [[e He]|(r & Hr & Hl)].
  - rewrite (_read_raise_keeps c2 _ e); [by rewrite Hnone|by rewrite Hk].
  - rewrite (_read_no_entry_keeps c2 _ r); [by rewrite Hnone|by rewrite Hk|].
    by rewrite Hn.
Qed.

Lemma delete_then_read_absent_witness :
  (_read absent_client
     (_delete occupied_client
        (fresh (with_active_resource (Some (service_entry "web" "ACTIVE" 3)) (web 3)))).2).1
  = inr None.
Proof.
  apply (delete_then_read_absent occupied_client absent_client
    (fresh (with_active_resource (Some (service_entry "web" "ACTIVE" 3)) (web 3)))).
  right.
  exists {[ "services" := VList [];
            "failures" := VList [VDict {[ "reason" := VStr "MISSING" ]}] ]}.
  split; [reflexivity|].
  intros l Hl. vm_compute in Hl. injection Hl as <-. constructor.
Defined.
